(** * telegram/types.go: the Bot API data model

    The package [telegram] consists of one file, [types.go], which declares
    nine struct types and no functions.  This development embeds it twice:

    - [Decl] is the declaration table: every struct, every field, the
      declared type expression of the field and whether its doc comment
      carries the [[Optional]] marker.  Properties of the declared types
      (which type an identifier field has, which identifiers resolve) are
      stated over this table.
    - [User], [Chat], ... are the same structs as Rocq records, over a
      64-bit integer type [int64], [bool], [string] and slices.  Properties
      of the values the model can hold are stated over the records. *)

From Stdlib Require Import ZArith List String Ascii Bool Lia Eqdep_dec.
From Stdlib Require Import Relations.
Import ListNotations.

Set Implicit Arguments.

Local Open Scope string_scope.
Local Open Scope Z_scope.

(** ** Go's predeclared types *)

Module Go.

(** [int64]: the integers from -2^63 to 2^63-1. *)
Definition int64_min : Z := - 2 ^ 63.
Definition int64_max : Z := 2 ^ 63 - 1.

Definition in_int64 (z : Z) : bool := (int64_min <=? z) && (z <=? int64_max).

Record int64 : Set := mk_int64 {
  int64_val : Z;
  int64_ok : in_int64 int64_val = true
}.

(** Conversion of an integer: defined on the range only, nothing wraps. *)
Definition int64_of_Z (z : Z) : option int64 :=
  (if in_int64 z as b return in_int64 z = b -> option int64
   then fun H => Some (mk_int64 z H)
   else fun _ => None) eq_refl.

(** The zero value of [int64]. *)
Definition int64_zero : int64 := @mk_int64 0 eq_refl.

(** A slice [[]T]: [nil], the zero value, or a slice that holds elements,
    possibly none.  [nil] and the empty slice both have length 0, and
    they are different values: only the first equals [nil]. *)
Inductive slice (A : Type) : Type :=
| nil_slice
| make_slice (elems : list A).

Arguments nil_slice {A}.
Arguments make_slice {A} elems.

Definition elements {A : Type} (s : slice A) : list A :=
  match s with
  | nil_slice => []
  | make_slice elems => elems
  end.

Definition is_nil {A : Type} (s : slice A) : bool :=
  match s with
  | nil_slice => true
  | make_slice _ => false
  end.

(** The identifiers Go declares in its universe block as types. *)
Definition predeclared : list string :=
  [ "bool"; "string";
    "int"; "int8"; "int16"; "int32"; "int64";
    "uint"; "uint8"; "uint16"; "uint32"; "uint64"; "uintptr";
    "float32"; "float64"; "complex64"; "complex128";
    "byte"; "rune"; "error"; "any" ].

(** The predeclared numeric types. *)
Definition numeric : list string :=
  [ "int"; "int8"; "int16"; "int32"; "int64";
    "uint"; "uint8"; "uint16"; "uint32"; "uint64"; "uintptr";
    "float32"; "float64"; "complex64"; "complex128";
    "byte"; "rune" ].

(** The width in bits of the integer types whose width the language
    fixes.  [int], [uint] and [uintptr] are the platform's default
    integers: their width is the host's, 32 or 64, and they get [None]. *)
Definition fixed_width (n : string) : option N :=
  if String.eqb n "int8" then Some 8%N
  else if String.eqb n "uint8" then Some 8%N
  else if String.eqb n "byte" then Some 8%N
  else if String.eqb n "int16" then Some 16%N
  else if String.eqb n "uint16" then Some 16%N
  else if String.eqb n "int32" then Some 32%N
  else if String.eqb n "uint32" then Some 32%N
  else if String.eqb n "rune" then Some 32%N
  else if String.eqb n "int64" then Some 64%N
  else if String.eqb n "uint64" then Some 64%N
  else None.

End Go.

(** Membership of a string in a list, as a boolean. *)
Definition mem (x : string) (l : list string) : bool :=
  existsb (String.eqb x) l.

(** ** The declarations of types.go *)

Module Decl.

(** A type expression as it stands after a field name: an identifier
    ([int64], [User], [Integer]), a slice [[]T] or a pointer [*T]. *)
Inductive TypeExpr : Set :=
| TName (n : string)
| TSlice (elem : TypeExpr)
| TPtr (elem : TypeExpr).

Record FieldDecl : Set := field {
  fd_name : string;
  fd_type : TypeExpr;
  (* the doc comment of the field starts with [Optional] *)
  fd_optional : bool
}.

Record StructDecl : Set := struct {
  sd_name : string;
  sd_fields : list FieldDecl
}.

Definition req (n : string) (t : string) : FieldDecl := field n (TName t) false.
Definition opt (n : string) (t : string) : FieldDecl := field n (TName t) true.

Definition User : StructDecl :=
  struct "User"
    [ req "ID" "int64";
      req "IsBot" "bool";
      req "FirstName" "string";
      opt "LastName" "string";
      opt "Username" "string";
      opt "LanguageCode" "string";
      opt "IsPremium" "bool";
      opt "AddedToAttachmentMenu" "bool";
      opt "CanJoinGroups" "bool";
      opt "CanReadAllGroupMessages" "bool";
      opt "SupportsInlineQueries" "bool";
      opt "CanConnectToBusiness" "bool";
      opt "HasMainWebApp" "bool" ].

Definition Chat : StructDecl :=
  struct "Chat"
    [ req "ID" "int64";
      req "Type" "string";
      opt "Title" "string";
      opt "Username" "string";
      opt "FirstName" "string";
      opt "LastName" "string";
      opt "IsForum" "bool" ].

Definition MessageID : StructDecl :=
  struct "MessageID" [ req "MessageID" "int64" ].

Definition InaccessibleMessage : StructDecl :=
  struct "InaccessibleMessage"
    [ req "Chat" "Chat";
      req "MessageID" "int64";
      req "Date" "int64" ].

Definition MessageEntity : StructDecl :=
  struct "MessageEntity"
    [ req "Type" "string";
      req "Offset" "int64";
      req "Length" "int64";
      opt "URL" "string";
      opt "User" "User";
      opt "Language" "string";
      opt "CustomEmojiID" "string" ].

Definition TextQuote : StructDecl :=
  struct "TextQuote"
    [ req "Text" "string";
      field "Entities" (TSlice (TName "MessageEntity")) true;
      req "Position" "int64";
      opt "IsManual" "bool" ].

Definition ReplyParameters : StructDecl :=
  struct "ReplyParameters"
    [ req "MessageID" "int64";
      opt "ChatID" "string";
      opt "AllowSendingWithoutReply" "bool";
      opt "Quote" "string";
      opt "QuoteParseMode" "string";
      field "QuoteEntities" (TSlice (TName "MessageEntity")) true;
      opt "QuotePosition" "Integer" ].

Definition MessageOriginUser : StructDecl :=
  struct "MessageOriginUser"
    [ req "Type" "string";
      req "Date" "int64";
      req "SenderUser" "User" ].

Definition MessageOriginHiddenUser : StructDecl :=
  struct "MessageOriginHiddenUser"
    [ req "Type" "string";
      req "Date" "int64";
      req "SendUserName" "string" ].

(** The package: every [type ... struct] of the file, in file order. *)
Definition package : list StructDecl :=
  [ User; Chat; MessageID; InaccessibleMessage; MessageEntity; TextQuote;
    ReplyParameters; MessageOriginUser; MessageOriginHiddenUser ].

Definition declared : list string := map sd_name package.

Definition find_struct (s : string) : option StructDecl :=
  find (fun d => String.eqb (sd_name d) s) package.

Definition find_field (d : StructDecl) (f : string) : option FieldDecl :=
  find (fun x => String.eqb (fd_name x) f) (sd_fields d).

(** The declared type of field [f] of struct [s]. *)
Definition field_type (s f : string) : option TypeExpr :=
  match find_struct s with
  | Some d => option_map fd_type (find_field d f)
  | None => None
  end.

(** Every field of the package, with the struct it belongs to. *)
Definition all_fields : list (string * FieldDecl) :=
  flat_map (fun d => map (fun f => (sd_name d, f)) (sd_fields d)) package.

Definition optional_fields : list (string * FieldDecl) :=
  filter (fun sf => fd_optional (snd sf)) all_fields.

(** What a type expression denotes once its identifiers are looked up:
    a predeclared type of the language, a struct of the package, or a
    slice or pointer built on one. *)
Inductive Resolved : Set :=
| RPredeclared (n : string)
| RStruct (n : string)
| RSlice (r : Resolved)
| RPtr (r : Resolved).

(** Identifier resolution, as the Go type checker does it for a package
    without imports: the package block first, then the universe block.
    An identifier found in neither is undefined. *)
Fixpoint resolve (t : TypeExpr) : option Resolved :=
  match t with
  | TName n =>
      if mem n declared then Some (RStruct n)
      else if mem n Go.predeclared then Some (RPredeclared n)
      else None
  | TSlice e => option_map RSlice (resolve e)
  | TPtr e => option_map RPtr (resolve e)
  end.

(** The width of the integer type an expression resolves to, when it
    resolves to an integer type of fixed width. *)
Definition fixed_width_bits (t : TypeExpr) : option N :=
  match resolve t with
  | Some (RPredeclared n) => Go.fixed_width n
  | _ => None
  end.

(** A field is numeric when its declared type is none of: [bool],
    [string], a struct of the package, a slice, a pointer.  What
    remains is a predeclared numeric type, or an identifier that is
    meant as one. *)
Definition is_numeric (t : TypeExpr) : bool :=
  match t with
  | TName n =>
      negb (String.eqb n "bool") && negb (String.eqb n "string") && negb (mem n declared)
  | TSlice _ | TPtr _ => false
  end.

Definition numeric_fields : list (string * FieldDecl) :=
  filter (fun sf => is_numeric (fd_type (snd sf))) all_fields.

(** The fields that hold an identifier (of a user, a chat, a message). *)
Definition id_fields : list (string * string) :=
  [ ("User", "ID");
    ("Chat", "ID");
    ("MessageID", "MessageID");
    ("InaccessibleMessage", "MessageID");
    ("ReplyParameters", "MessageID");
    ("ReplyParameters", "ChatID") ].

Definition is_pointer (t : TypeExpr) : bool :=
  match t with TPtr _ => true | _ => false end.

Definition is_slice (t : TypeExpr) : bool :=
  match t with TSlice _ => true | _ => false end.

End Decl.

(** ** The structs as records

    One record per [type ... struct], field for field and in the order of
    the file.  A slice [[]T] is a [Go.slice].  [ReplyParameters] has a field of
    type [Integer], an identifier the package does not declare: the record
    takes it as a parameter. *)

(** This struct can represent both a user and a bot. *)
Record User : Set := {
  User_ID : Go.int64;
  User_IsBot : bool;
  User_FirstName : string;
  User_LastName : string;
  User_Username : string;
  User_LanguageCode : string;
  User_IsPremium : bool;
  User_AddedToAttachmentMenu : bool;
  User_CanJoinGroups : bool;
  User_CanReadAllGroupMessages : bool;
  User_SupportsInlineQueries : bool;
  User_CanConnectToBusiness : bool;
  User_HasMainWebApp : bool
}.

(** This struct represents a chat. *)
Record Chat : Set := {
  Chat_ID : Go.int64;
  Chat_Type : string;
  Chat_Title : string;
  Chat_Username : string;
  Chat_FirstName : string;
  Chat_LastName : string;
  Chat_IsForum : bool
}.

(** A unique message identifier. *)
Record MessageID : Set := {
  MessageID_MessageID : Go.int64
}.

(** A message that was deleted or is otherwise inaccessible to the bot. *)
Record InaccessibleMessage : Set := {
  InaccessibleMessage_Chat : Chat;
  InaccessibleMessage_MessageID : Go.int64;
  InaccessibleMessage_Date : Go.int64
}.

(** One special entity in a text message. *)
Record MessageEntity : Set := {
  MessageEntity_Type : string;
  MessageEntity_Offset : Go.int64;
  MessageEntity_Length : Go.int64;
  MessageEntity_URL : string;
  MessageEntity_User : User;
  MessageEntity_Language : string;
  MessageEntity_CustomEmojiID : string
}.

(** The quoted part of a message that is replied to. *)
Record TextQuote : Set := {
  TextQuote_Text : string;
  TextQuote_Entities : Go.slice MessageEntity;
  TextQuote_Position : Go.int64;
  TextQuote_IsManual : bool
}.

(** Parameters for the message that is being sent. *)
Record ReplyParameters (Integer : Type) : Type := {
  ReplyParameters_MessageID : Go.int64;
  ReplyParameters_ChatID : string;
  ReplyParameters_AllowSendingWithoutReply : bool;
  ReplyParameters_Quote : string;
  ReplyParameters_QuoteParseMode : string;
  ReplyParameters_QuoteEntities : Go.slice MessageEntity;
  ReplyParameters_QuotePosition : Integer
}.

(** The message was originally sent by a known user. *)
Record MessageOriginUser : Set := {
  MessageOriginUser_Type : string;
  MessageOriginUser_Date : Go.int64;
  MessageOriginUser_SenderUser : User
}.

(** The message was originally sent by an unknown user. *)
Record MessageOriginHiddenUser : Set := {
  MessageOriginHiddenUser_Type : string;
  MessageOriginHiddenUser_Date : Go.int64;
  MessageOriginHiddenUser_SendUserName : string
}.

(** The zero value of [User]: what a variable of the type holds before
    anything is assigned to it. *)
Definition User_zero : User :=
  {| User_ID := Go.int64_zero;
     User_IsBot := false;
     User_FirstName := "";
     User_LastName := "";
     User_Username := "";
     User_LanguageCode := "";
     User_IsPremium := false;
     User_AddedToAttachmentMenu := false;
     User_CanJoinGroups := false;
     User_CanReadAllGroupMessages := false;
     User_SupportsInlineQueries := false;
     User_CanConnectToBusiness := false;
     User_HasMainWebApp := false |}.

(** What the claim about identifier fields asks of a field: a declared
    type that resolves to an integer type of 64 bits. *)
Definition declared_64_bit (s f : string) : Prop :=
  option_map Decl.fixed_width_bits (Decl.field_type s f) = Some (Some 64%N).

Definition is_field (s f : string) (sf : string * string) : bool :=
  String.eqb (fst sf) s && String.eqb (snd sf) f.

Definition named (sf : string * Decl.FieldDecl) : string * string :=
  (fst sf, Decl.fd_name (snd sf)).

(** ** Optional fields

    A field of a decoded value is read with [get].  A payload either
    leaves the field out or gives it an explicit value [v], which the
    field then holds as [embed v].  The field has a state of its own for
    "absent" when some way of decoding leaves in it, for a payload
    without the field, a value that no explicit value is stored as.

    For a field of plain type [T], an explicit [v] is stored as [v]
    itself ([embed] is the identity).  For a field of pointer type [*T]
    it is stored behind a pointer ([embed] is [Some]) and [nil] ([None])
    is left for "absent". *)

Section OptionalField.

Variables (S F V : Type).
Variable get : S -> F.
Variable embed : V -> F.

Definition three_state : Prop :=
  exists decode : option V -> S,
    (forall v, get (decode (Some v)) = embed v) /\
    (forall v, get (decode None) <> embed v).

End OptionalField.

(** How a field holds the value a payload gives it, by the type of the
    field: a field of plain type [T] holds a [T] as it is; a slice field
    holds the elements in a slice that is not [nil]; a pointer field
    holds a pointer to the value. *)
Inductive Storage : Type -> Type -> Type :=
| Plain (V : Type) : Storage V V
| Slice (A : Type) : Storage (Go.slice A) (list A)
| Pointer (V : Type) : Storage (option V) V.

Definition embed {F V : Type} (st : Storage F V) : V -> F :=
  match st in Storage F' V' return V' -> F' with
  | Plain _ => fun v => v
  | Slice _ => fun elems => Go.make_slice elems
  | Pointer _ => fun v => Some v
  end.

(** The kinds of type, as far as holding [nil] goes. *)
Inductive Kind : Set := KPlain | KSlice | KPointer | KInterface.

Definition storage_kind {F V : Type} (st : Storage F V) : Kind :=
  match st with
  | Plain _ => KPlain
  | Slice _ => KSlice
  | Pointer _ => KPointer
  end.

(** The types with a [nil]: slices, pointers, interfaces. *)
Definition has_nil (k : Kind) : bool :=
  match k with
  | KPlain => false
  | KSlice | KPointer | KInterface => true
  end.

(** The kind of a declared type; none for an identifier that is not
    declared. *)
Definition kind_of (t : Decl.TypeExpr) : option Kind :=
  match t with
  | Decl.TSlice _ => Some KSlice
  | Decl.TPtr _ => Some KPointer
  | Decl.TName n =>
      match Decl.resolve t with
      | Some (Decl.RPredeclared _) =>
          if mem n ["error"; "any"] then Some KInterface else Some KPlain
      | Some _ => Some KPlain
      | None => None
      end
  end.

Definition defined_kind (t : Decl.TypeExpr) : bool :=
  match kind_of t with
  | Some _ => true
  | None => false
  end.

(** An optional field: the projection that reads it and the storage its
    declared type gives it. *)
Record OptionalField : Type := optional_field {
  of_struct : string;
  of_name : string;
  of_S : Type;
  of_F : Type;
  of_V : Type;
  of_get : of_S -> of_F;
  of_storage : Storage of_F of_V
}.

(** The projections of the fields marked [[Optional]] whose type is
    declared, in file order. *)
Definition optional_projections (Integer : Type) : list OptionalField :=
  [ optional_field "User" "LastName" User_LastName (Plain string);
    optional_field "User" "Username" User_Username (Plain string);
    optional_field "User" "LanguageCode" User_LanguageCode (Plain string);
    optional_field "User" "IsPremium" User_IsPremium (Plain bool);
    optional_field "User" "AddedToAttachmentMenu"
      User_AddedToAttachmentMenu (Plain bool);
    optional_field "User" "CanJoinGroups" User_CanJoinGroups (Plain bool);
    optional_field "User" "CanReadAllGroupMessages"
      User_CanReadAllGroupMessages (Plain bool);
    optional_field "User" "SupportsInlineQueries"
      User_SupportsInlineQueries (Plain bool);
    optional_field "User" "CanConnectToBusiness"
      User_CanConnectToBusiness (Plain bool);
    optional_field "User" "HasMainWebApp" User_HasMainWebApp (Plain bool);
    optional_field "Chat" "Title" Chat_Title (Plain string);
    optional_field "Chat" "Username" Chat_Username (Plain string);
    optional_field "Chat" "FirstName" Chat_FirstName (Plain string);
    optional_field "Chat" "LastName" Chat_LastName (Plain string);
    optional_field "Chat" "IsForum" Chat_IsForum (Plain bool);
    optional_field "MessageEntity" "URL" MessageEntity_URL (Plain string);
    optional_field "MessageEntity" "User" MessageEntity_User (Plain User);
    optional_field "MessageEntity" "Language"
      MessageEntity_Language (Plain string);
    optional_field "MessageEntity" "CustomEmojiID"
      MessageEntity_CustomEmojiID (Plain string);
    optional_field "TextQuote" "Entities"
      TextQuote_Entities (Slice MessageEntity);
    optional_field "TextQuote" "IsManual" TextQuote_IsManual (Plain bool);
    optional_field "ReplyParameters" "ChatID"
      (@ReplyParameters_ChatID Integer) (Plain string);
    optional_field "ReplyParameters" "AllowSendingWithoutReply"
      (@ReplyParameters_AllowSendingWithoutReply Integer) (Plain bool);
    optional_field "ReplyParameters" "Quote"
      (@ReplyParameters_Quote Integer) (Plain string);
    optional_field "ReplyParameters" "QuoteParseMode"
      (@ReplyParameters_QuoteParseMode Integer) (Plain string);
    optional_field "ReplyParameters" "QuoteEntities"
      (@ReplyParameters_QuoteEntities Integer) (Slice MessageEntity) ].

(** The same fields with the kinds of their declared types, read off the
    declaration table. *)
Definition optional_decl_kinds : list (string * string * option Kind) :=
  map (fun sf =>
         (fst sf, Decl.fd_name (snd sf), kind_of (Decl.fd_type (snd sf))))
    (filter (fun sf => defined_kind (Decl.fd_type (snd sf)))
       Decl.optional_fields).

(** The optional fields whose type is not declared. *)
Definition optional_undeclared : list (string * string) :=
  map named
    (filter (fun sf => negb (defined_kind (Decl.fd_type (snd sf))))
       Decl.optional_fields).

(** The same fields, read off the declaration table. *)
Definition optional_plain_decls : list (string * string) :=
  map (fun sf => (fst sf, Decl.fd_name (snd sf)))
    (filter (fun sf => negb (Decl.is_slice (Decl.fd_type (snd sf))))
       Decl.optional_fields).

(** The types the optional fields are declared with. *)
Definition optional_types : list Decl.TypeExpr :=
  [ Decl.TName "string"; Decl.TName "bool"; Decl.TName "User";
    Decl.TName "Integer"; Decl.TSlice (Decl.TName "MessageEntity") ].

Definition type_eqb : Decl.TypeExpr -> Decl.TypeExpr -> bool :=
  fix eqb (a b : Decl.TypeExpr) : bool :=
    match a, b with
    | Decl.TName n, Decl.TName m => String.eqb n m
    | Decl.TSlice x, Decl.TSlice y => eqb x y
    | Decl.TPtr x, Decl.TPtr y => eqb x y
    | _, _ => false
    end.

(** ** The decoder

    types.go declares the data and nothing that decodes it.  The two
    components below, the union resolver and the text-entity resolver,
    are written from the specification of the decoder, over the records
    above. *)

#[local] Unset Elimination Schemes.

(** Modelled from the spec: the JSON document the decoder is handed (the
    package has no JSON type).  Numbers are integers: the model has no
    field that holds a fraction. *)
Inductive json : Set :=
| JNull
| JBool (b : bool)
| JNum (z : Z)
| JStr (s : string)
| JArr (items : list json)
| JObj (members : list (string * json)).

#[local] Set Elimination Schemes.

(** Modelled from the spec: the raw object, its members in wire order. *)
Definition object : Set := list (string * json).

(** Modelled from the spec: the raw field lookup (section 4.1), present
    with a value or not present; the first value if the key is repeated. *)
Fixpoint lookup (k : string) (o : object) : option json :=
  match o with
  | [] => None
  | (k', v) :: o' => if String.eqb k k' then Some v else lookup k o'
  end.

(** Modelled from the spec: the error taxonomy of the decoder (section 7;
    the package declares no error type). *)
Inductive DecodeError : Set :=
| MissingRequiredField (path : string)
| TypeMismatch (path : string)
| UnknownVariant (raw : string)
| MissingDiscriminator
| EntitySpanOutOfRange (index : nat)
| MisplacedEntityField (path : string)
| QuoteTooLong
| InconsistentQuotePosition
| ClosedSetViolation (raw : string).

(** Modelled from the spec: the outcome of strict decoding (section 4.5),
    a value or the first error. *)
Inductive result (A : Type) : Type :=
| Ok (a : A)
| Err (e : DecodeError).

Arguments Ok {A} a.
Arguments Err {A} e.

Definition bind {A B : Type} (r : result A) (k : A -> result B) : result B :=
  match r with
  | Ok a => k a
  | Err e => Err e
  end.

Definition rmap {A B : Type} (f : A -> B) (r : result A) : result B :=
  bind r (fun a => Ok (f a)).

Notation "x <- r ;; k" := (bind r (fun x => k))
  (at level 61, r at next level, right associativity).

(** *** Reading one member of an object

    A required member that is missing is [MissingRequiredField]; a member
    of the wrong JSON kind, or a number outside [int64], is
    [TypeMismatch].  An optional member that is missing leaves the zero
    value of the field's type, which is all a field of plain type can
    hold. *)

(** Modelled from the spec: a JSON number as the [int64] of a field. *)
Definition as_int64 (k : string) (j : json) : result Go.int64 :=
  match j with
  | JNum z =>
      match Go.int64_of_Z z with
      | Some i => Ok i
      | None => Err (TypeMismatch k)
      end
  | _ => Err (TypeMismatch k)
  end.

(** Modelled from the spec: a JSON string as the [string] of a field. *)
Definition as_string (k : string) (j : json) : result string :=
  match j with
  | JStr s => Ok s
  | _ => Err (TypeMismatch k)
  end.

(** Modelled from the spec: a JSON boolean as the [bool] of a field. *)
Definition as_bool (k : string) (j : json) : result bool :=
  match j with
  | JBool b => Ok b
  | _ => Err (TypeMismatch k)
  end.

(** Modelled from the spec: a member the protocol requires. *)
Definition required {A : Type} (as_A : string -> json -> result A)
    (k : string) (o : object) : result A :=
  match lookup k o with
  | Some j => as_A k j
  | None => Err (MissingRequiredField k)
  end.

(** Modelled from the spec: a member the protocol marks optional, into a
    field of plain type. *)
Definition optional {A : Type} (as_A : string -> json -> result A)
    (zero : A) (k : string) (o : object) : result A :=
  match lookup k o with
  | Some j => as_A k j
  | None => Ok zero
  end.

(** Modelled from the spec: a nested object. *)
Definition as_object (k : string) (j : json) : result object :=
  match j with
  | JObj o => Ok o
  | _ => Err (TypeMismatch k)
  end.

(** Modelled from the spec: the leaf decoder of [User] (section 3: [id],
    [isBot] and [firstName], then the optional attributes; section 6:
    lower_snake_case keys that map one-to-one to the fields). *)
Definition decode_User (o : object) : result User :=
  id <- required as_int64 "id" o ;;
  is_bot <- required as_bool "is_bot" o ;;
  first_name <- required as_string "first_name" o ;;
  last_name <- optional as_string "" "last_name" o ;;
  username <- optional as_string "" "username" o ;;
  language_code <- optional as_string "" "language_code" o ;;
  is_premium <- optional as_bool false "is_premium" o ;;
  added <- optional as_bool false "added_to_attachment_menu" o ;;
  can_join <- optional as_bool false "can_join_groups" o ;;
  can_read <- optional as_bool false "can_read_all_group_messages" o ;;
  inline <- optional as_bool false "supports_inline_queries" o ;;
  business <- optional as_bool false "can_connect_to_business" o ;;
  web_app <- optional as_bool false "has_main_web_app" o ;;
  Ok {| User_ID := id;
        User_IsBot := is_bot;
        User_FirstName := first_name;
        User_LastName := last_name;
        User_Username := username;
        User_LanguageCode := language_code;
        User_IsPremium := is_premium;
        User_AddedToAttachmentMenu := added;
        User_CanJoinGroups := can_join;
        User_CanReadAllGroupMessages := can_read;
        User_SupportsInlineQueries := inline;
        User_CanConnectToBusiness := business;
        User_HasMainWebApp := web_app |}.

(** Modelled from the spec: a nested [User]. *)
Definition as_User (k : string) (j : json) : result User :=
  o <- as_object k j ;; decode_User o.

(** Modelled from the spec: the decoder of the variant [MessageOriginUser]
    (section 3: it carries [date] and [senderUser]). *)
Definition decode_MessageOriginUser (o : object) : result MessageOriginUser :=
  type <- required as_string "type" o ;;
  date <- required as_int64 "date" o ;;
  sender <- required as_User "sender_user" o ;;
  Ok {| MessageOriginUser_Type := type;
        MessageOriginUser_Date := date;
        MessageOriginUser_SenderUser := sender |}.

(** Modelled from the spec: the decoder of the variant
    [MessageOriginHiddenUser] (section 3: it carries [date] and
    [senderUserName]; section 8 gives the key as [sender_user_name]). *)
Definition decode_MessageOriginHiddenUser (o : object)
    : result MessageOriginHiddenUser :=
  type <- required as_string "type" o ;;
  date <- required as_int64 "date" o ;;
  name <- required as_string "sender_user_name" o ;;
  Ok {| MessageOriginHiddenUser_Type := type;
        MessageOriginHiddenUser_Date := date;
        MessageOriginHiddenUser_SendUserName := name |}.

(** *** Union resolver *)

(** Modelled from the spec: the table of section 4.2, read at
    discriminator value [d]; the first row if the value is listed twice. *)
Fixpoint variant_of {V : Type} (d : string)
    (table : list (string * (object -> result V)))
    : option (object -> result V) :=
  match table with
  | [] => None
  | (d', dec) :: table' =>
      if String.eqb d d' then Some dec else variant_of d table'
  end.

(** Modelled from the spec: the union resolver (section 4.2).  Its input
    is the raw object and a table from discriminator value to variant
    decode function.  It reads the discriminator [disc] before anything
    else; a missing one is [MissingDiscriminator], one the table does not
    list is [UnknownVariant] with the raw string. *)
Definition resolve_union {V : Type} (disc : string)
    (table : list (string * (object -> result V))) (o : object) : result V :=
  match lookup disc o with
  | None => Err MissingDiscriminator
  | Some (JStr d) =>
      match variant_of d table with
      | Some dec => dec o
      | None => Err (UnknownVariant d)
      end
  | Some _ => Err (TypeMismatch disc)
  end.

Section MessageOrigin.

(** types.go declares two of the four variants its comment lists.  The
    variants it does not declare, [MessageOriginChat] and
    [MessageOriginChannel], are a parameter: their payload type and
    their rows of the table. *)
Variable Other : Type.
Variable other_variants : list (string * (object -> result Other)).

(** MessageOrigin, another "union". *)
Inductive MessageOrigin : Type :=
| OriginUser (u : MessageOriginUser)
| OriginHiddenUser (h : MessageOriginHiddenUser)
| OriginOther (x : Other).

(** Modelled from the spec: the table of the [MessageOrigin] union,
    discriminated by [type] (section 3). *)
Definition MessageOrigin_table
    : list (string * (object -> result MessageOrigin)) :=
  ("user", fun o => rmap OriginUser (decode_MessageOriginUser o))
  :: ("hidden_user",
      fun o => rmap OriginHiddenUser (decode_MessageOriginHiddenUser o))
  :: map (fun row => (fst row, fun o => rmap OriginOther (snd row o)))
       other_variants.

(** The discriminator values the table lists. *)
Definition MessageOrigin_variants : list string :=
  map fst MessageOrigin_table.

(** Modelled from the spec: decoding of a [MessageOrigin] node. *)
Definition decode_MessageOrigin (j : json) : result MessageOrigin :=
  match j with
  | JObj o => resolve_union "type" MessageOrigin_table o
  | _ => Err (TypeMismatch "")
  end.

End MessageOrigin.

Arguments OriginUser {Other} u.
Arguments OriginHiddenUser {Other} h.
Arguments OriginOther {Other} x.

(** *** Text-entity resolver *)

(** Modelled from the spec: the counting convention of section 4.3.  A Go
    string is a sequence of bytes, UTF-8 for text.  Each byte that starts
    a character counts for the UTF-16 code units of the character:
    two for the lead byte of a four-byte sequence (a character above
    U+FFFF, a surrogate pair), one for any other lead byte, none for a
    continuation byte. *)
Definition utf16_units (c : ascii) : Z :=
  let b := Z.of_N (N_of_ascii c) in
  if b <? 128 then 1
  else if b <? 192 then 0
  else if b <? 240 then 1
  else 2.

(** Modelled from the spec: the length of a text in UTF-16 code units. *)
Fixpoint utf16_length (s : string) : Z :=
  match s with
  | EmptyString => 0
  | String c s' => utf16_units c + utf16_length s'
  end.

Definition entity_offset (e : MessageEntity) : Z :=
  Go.int64_val (MessageEntity_Offset e).

Definition entity_length (e : MessageEntity) : Z :=
  Go.int64_val (MessageEntity_Length e).

(** Modelled from the spec: a validated span, the code units from
    [span_start] up to [span_end], and the entity it belongs to. *)
Record Span : Set := {
  span_start : Z;
  span_end : Z;
  span_entity : MessageEntity
}.

Definition span_of (e : MessageEntity) : Span :=
  {| span_start := entity_offset e;
     span_end := entity_offset e + entity_length e;
     span_entity := e |}.

(** Modelled from the spec: the bounds of section 4.3, [0 <= offset] and
    [offset + length <= textLength], over the integers. *)
Definition span_in_range (len : Z) (e : MessageEntity) : bool :=
  (0 <=? entity_offset e) && (entity_offset e + entity_length e <=? len).



(** ** The package as the type checker sees it

    The file is one of a package: other files may declare further types.
    The functions below look at the declarations of types.go when the
    package declares the type names [extra] besides. *)

(** [Decl.resolve], with the type names of the package as an argument. *)
Fixpoint resolve_in (decls : list string) (t : Decl.TypeExpr)
    : option Decl.Resolved :=
  match t with
  | Decl.TName n =>
      if mem n decls then Some (Decl.RStruct n)
      else if mem n Go.predeclared then Some (Decl.RPredeclared n)
      else None
  | Decl.TSlice e => option_map Decl.RSlice (resolve_in decls e)
  | Decl.TPtr e => option_map Decl.RPtr (resolve_in decls e)
  end.

Definition resolves_in (decls : list string) (t : Decl.TypeExpr) : bool :=
  match resolve_in decls t with
  | Some _ => true
  | None => false
  end.

(** The identifier a type expression is built on. *)
Fixpoint base_name (t : Decl.TypeExpr) : string :=
  match t with
  | Decl.TName n => n
  | Decl.TSlice e => base_name e
  | Decl.TPtr e => base_name e
  end.

(** The fields of types.go whose type is undefined in a package that
    declares [extra] besides the nine structs. *)
Definition undefined_fields (extra : list string) : list (string * string) :=
  map named
    (filter
       (fun sf =>
          negb (resolves_in (Decl.declared ++ extra) (Decl.fd_type (snd sf))))
       Decl.all_fields).

(** *** Comparable types

    The operator [==], and with it the use of a value as a map key, is
    defined on the comparable types: booleans, numbers, strings and
    pointers are comparable, a slice is not, and a struct is when all its
    fields are.  [integer] says whether [Integer] is comparable, should
    the package declare it; [fuel] bounds the nesting of structs. *)
Fixpoint comparable (fuel : nat) (integer : bool) (t : Decl.TypeExpr)
    : bool :=
  match fuel with
  | O => false
  | S fuel' =>
      match t with
      | Decl.TSlice _ => false
      | Decl.TPtr _ => true
      | Decl.TName n =>
          match Decl.find_struct n with
          | Some d =>
              forallb (fun f => comparable fuel' integer (Decl.fd_type f))
                (Decl.sd_fields d)
          | None => if mem n Go.predeclared then true else integer
          end
      end
  end.

(** *** Structs inside structs *)

(** The structs of the package that the fields of [d] are built on. *)
Definition struct_uses (d : Decl.StructDecl) : list string :=
  filter (fun n => mem n Decl.declared)
    (map (fun f => base_name (Decl.fd_type f)) (Decl.sd_fields d)).

(** Struct [a] has a field built on struct [b]. *)
Definition contains (a b : string) : Prop :=
  exists d : Decl.StructDecl,
    In d Decl.package /\ Decl.sd_name d = a /\ In b (struct_uses d).

(** Where a name stands in a list (the length of the list if nowhere). *)
Fixpoint position (n : string) (l : list string) : nat :=
  match l with
  | [] => O
  | x :: l' => if String.eqb n x then O else S (position n l')
  end.

(** ** What the comments document *)

(** The values of [MessageEntity.Type], as its comment lists them. *)
Definition entity_types : list string :=
  [ "mention"; "hashtag"; "cashtag"; "bot_command"; "url"; "email";
    "phone_number"; "bold"; "italic"; "underline"; "strikethrough";
    "spoiler"; "blockquote"; "expandable_blockquote"; "code"; "pre";
    "text_link"; "text_mention"; "custom_emoji" ].

(** The fields of [MessageEntity] whose comment reads
    [For "t" only], with that [t]. *)
Definition payload_only : list (string * string) :=
  [ ("URL", "text_link");
    ("User", "text_mention");
    ("Language", "pre");
    ("CustomEmojiID", "custom_emoji") ].

(** The payload fields documented for entity type [t]. *)
Definition applicable (t : string) : list string :=
  map fst (filter (fun row => String.eqb (snd row) t) payload_only).

(** The entities kept in quotes, as the comment of [TextQuote.Entities]
    lists them. *)
Definition quote_entity_types : list string :=
  [ "bold"; "italic"; "underline"; "strikethrough"; "spoiler";
    "custom_emoji" ].

(** The same list in the comment of [ReplyParameters.Quote]. *)
Definition reply_quote_entity_types : list string :=
  [ "bold"; "italic"; "underline"; "strikethrough"; "spoiler";
    "custom_emoji" ].

(** ** The text-entity resolver *)

(** The operator [==] on [int64] and on [User], field by field. *)
Definition int64_eqb (a b : Go.int64) : bool :=
  Go.int64_val a =? Go.int64_val b.

Definition User_eqb (a b : User) : bool :=
  int64_eqb (User_ID a) (User_ID b)
  && Bool.eqb (User_IsBot a) (User_IsBot b)
  && String.eqb (User_FirstName a) (User_FirstName b)
  && String.eqb (User_LastName a) (User_LastName b)
  && String.eqb (User_Username a) (User_Username b)
  && String.eqb (User_LanguageCode a) (User_LanguageCode b)
  && Bool.eqb (User_IsPremium a) (User_IsPremium b)
  && Bool.eqb (User_AddedToAttachmentMenu a) (User_AddedToAttachmentMenu b)
  && Bool.eqb (User_CanJoinGroups a) (User_CanJoinGroups b)
  && Bool.eqb (User_CanReadAllGroupMessages a)
       (User_CanReadAllGroupMessages b)
  && Bool.eqb (User_SupportsInlineQueries a) (User_SupportsInlineQueries b)
  && Bool.eqb (User_CanConnectToBusiness a) (User_CanConnectToBusiness b)
  && Bool.eqb (User_HasMainWebApp a) (User_HasMainWebApp b).

(** Modelled from the spec: the payload fields an entity has populated
    (section 4.3), in the order of the struct.  The four fields have
    plain types, so a field is populated when it holds another value than
    the zero value of its type. *)
Definition populated (e : MessageEntity) : list string :=
  (if String.eqb (MessageEntity_URL e) "" then [] else ["URL"])
  ++ (if User_eqb (MessageEntity_User e) User_zero then [] else ["User"])
  ++ (if String.eqb (MessageEntity_Language e) "" then [] else ["Language"])
  ++ (if String.eqb (MessageEntity_CustomEmojiID e) "" then []
      else ["CustomEmojiID"]).

(** Modelled from the spec: the populated payload fields that are
    incompatible with the type of the entity, by the table of the
    comments ([applicable]). *)
Definition misplaced (e : MessageEntity) : list string :=
  filter (fun f => negb (mem f (applicable (MessageEntity_Type e))))
    (populated e).


(** Modelled from the spec: the two checks section 4.3 gives the
    resolver, on the entity at index [i]: its span is in bounds, and it
    has no payload field incompatible with its type. *)
Inductive Check : Set :=
| CheckSpan (i : nat)
| CheckPayload (i : nat).

(** Modelled from the spec: one check, [EntitySpanOutOfRange] with the
    index of the entity or [MisplacedEntityField] with the first field
    that is out of place. *)
Definition run_check (len : Z) (es : list MessageEntity) (c : Check)
    : result unit :=
  match c with
  | CheckSpan i =>
      match nth_error es i with
      | Some e =>
          if span_in_range len e then Ok tt
          else Err (EntitySpanOutOfRange i)
      | None => Ok tt
      end
  | CheckPayload i =>
      match nth_error es i with
      | Some e =>
          match misplaced e with
          | [] => Ok tt
          | f :: _ => Err (MisplacedEntityField f)
          end
      | None => Ok tt
      end
  end.

(** Modelled from the spec: strict decoding (section 4.5), the checks in
    the order given, the first error aborting. *)
Fixpoint run_checks (len : Z) (es : list MessageEntity) (sched : list Check)
    : result unit :=
  match sched with
  | [] => Ok tt
  | c :: sched' => _ <- run_check len es c ;; run_checks len es sched'
  end.

(** Modelled from the spec: the text-entity resolver (section 4.3), from
    the text of a message and its entities to their spans, the entities
    neither reordered nor merged.  The section gives the resolver both
    checks and no order among them: the order [sched] is a parameter. *)
Definition resolve_entities (sched : list Check) (text : string)
    (es : list MessageEntity) : result (list Span) :=
  _ <- run_checks (utf16_length text) es sched ;; Ok (map span_of es).

(** An order that makes both checks on each of [n] entities. *)
Definition covers (sched : list Check) (n : nat) : Prop :=
  forall i : nat,
    (i < n)%nat -> In (CheckSpan i) sched /\ In (CheckPayload i) sched.

(** An order that validates the spans of all [n] entities before it looks
    at any payload. *)
Definition spans_first (sched : list Check) (n : nat) : Prop :=
  exists pre post : list Check,
    sched = (pre ++ post)%list /\
    (forall c, In c pre -> exists i, c = CheckSpan i) /\
    (forall i, (i < n)%nat -> In (CheckSpan i) pre).

(** Entity by entity, the span and then the payload. *)
Definition in_order (n : nat) : list Check :=
  flat_map (fun i => [CheckSpan i; CheckPayload i]) (seq 0 n).

(** All spans, then all payloads. *)
Definition two_passes (n : nat) : list Check :=
  (map CheckSpan (seq 0 n) ++ map CheckPayload (seq 0 n))%list.

(** The zero value of a field, whatever its type; [i0] is the one of
    [Integer]. *)
Ltac fill_fields i0 :=
  first [ exact "" | exact false | exact Go.int64_zero | exact User_zero
        | exact (@Go.nil_slice MessageEntity) | exact i0 ].

(** * Properties *)

(** ** 64-bit integers *)

Lemma int64_range (i : Go.int64) :
  - 2 ^ 63 <= Go.int64_val i <= 2 ^ 63 - 1.
Proof.
  destruct i as [z Hz]; simpl.
  unfold Go.in_int64, Go.int64_min, Go.int64_max in Hz.
  apply andb_prop in Hz; destruct Hz as [Hlo Hhi].
  apply Z.leb_le in Hlo; apply Z.leb_le in Hhi.
  split; assumption.
Qed.

(** Two [int64] are equal when their values are. *)
Lemma int64_ext (a b : Go.int64) :
  Go.int64_val a = Go.int64_val b -> a = b.
Proof.
  destruct a as [x Hx], b as [y Hy]; simpl; intros E.
  revert Hy; rewrite <- E; intros Hy.
  f_equal. apply UIP_dec. exact bool_dec.
Qed.

Lemma int64_of_Z_val (z : Z) (i : Go.int64) :
  Go.int64_of_Z z = Some i -> Go.int64_val i = z.
Proof.
  unfold Go.int64_of_Z.
  generalize (@eq_refl bool (Go.in_int64 z)).
  generalize (Go.in_int64 z) at 2 3.
  intros [|] H E; [| discriminate].
  injection E as <-. reflexivity.
Qed.

Lemma int64_of_Z_in_range (z : Z) :
  - 2 ^ 63 <= z <= 2 ^ 63 - 1 -> exists i, Go.int64_of_Z z = Some i.
Proof.
  intros [Hlo Hhi].
  assert (Hz : Go.in_int64 z = true).
  { unfold Go.in_int64, Go.int64_min, Go.int64_max.
    apply andb_true_intro; split; apply Z.leb_le; assumption. }
  unfold Go.int64_of_Z.
  generalize (@eq_refl bool (Go.in_int64 z)).
  generalize (Go.in_int64 z) at 2 3.
  intros [|] H; [eexists; reflexivity |].
  rewrite Hz in H; discriminate.
Qed.

(** ** Declared types *)

(** The identifier [Integer] is declared nowhere: not by the package, not
    by the language. *)
Lemma Integer_undefined :
  mem "Integer" Decl.declared = false /\
  mem "Integer" Go.predeclared = false /\
  Decl.resolve (Decl.TName "Integer") = None.
Proof. repeat split. Qed.

(** Every other type expression of the file resolves. *)
Lemma only_Integer_unresolved :
  Forall
    (fun sf =>
       Decl.resolve (Decl.fd_type (snd sf)) = None <->
       named sf = ("ReplyParameters", "QuotePosition"))
    Decl.all_fields.
Proof.
  unfold Decl.all_fields; simpl.
  repeat constructor; vm_compute; intros H; try discriminate H; reflexivity.
Qed.

(** C9, as stated, fails at [ReplyParameters.ChatID]: the field is one of
    the identifier fields and its declared type is [string], which is no
    integer type of any width. *)
Lemma ChatID_is_not_an_integer :
  In ("ReplyParameters", "ChatID") Decl.id_fields /\
  Decl.field_type "ReplyParameters" "ChatID" = Some (Decl.TName "string") /\
  ~ declared_64_bit "ReplyParameters" "ChatID".
Proof.
  split; [| split].
  - simpl; tauto.
  - reflexivity.
  - unfold declared_64_bit; vm_compute; discriminate.
Qed.

(** C9, amended: of the six identifier fields, five ([User.ID], [Chat.ID],
    [MessageID.MessageID], [InaccessibleMessage.MessageID],
    [ReplyParameters.MessageID]) are declared [int64], a signed integer of
    exactly 64 bits that holds -2^63 .. 2^63-1 and is not the platform's
    [int]; the sixth, [ReplyParameters.ChatID], is declared [string] and
    holds a channel username as well as the digits of an identifier. *)
Theorem id_fields_declared_types :
  Forall
    (fun sf =>
       if is_field "ReplyParameters" "ChatID" sf
       then Decl.field_type (fst sf) (snd sf) = Some (Decl.TName "string")
       else Decl.field_type (fst sf) (snd sf) = Some (Decl.TName "int64") /\
            declared_64_bit (fst sf) (snd sf))
    Decl.id_fields /\
  Decl.fixed_width_bits (Decl.TName "int") = None /\
  (forall i : Go.int64, - 2 ^ 63 <= Go.int64_val i <= 2 ^ 63 - 1) /\
  (forall Integer (r : ReplyParameters Integer) (name : string),
      exists r' : ReplyParameters Integer,
        ReplyParameters_ChatID r' = name /\
        ReplyParameters_MessageID r' = ReplyParameters_MessageID r).
Proof.
  split; [| split; [| split]].
  - unfold Decl.id_fields.
    repeat constructor; reflexivity.
  - reflexivity.
  - exact int64_range.
  - intros Integer r name.
    exists {| ReplyParameters_MessageID := ReplyParameters_MessageID r;
              ReplyParameters_ChatID := name;
              ReplyParameters_AllowSendingWithoutReply :=
                ReplyParameters_AllowSendingWithoutReply r;
              ReplyParameters_Quote := ReplyParameters_Quote r;
              ReplyParameters_QuoteParseMode := ReplyParameters_QuoteParseMode r;
              ReplyParameters_QuoteEntities := ReplyParameters_QuoteEntities r;
              ReplyParameters_QuotePosition := ReplyParameters_QuotePosition r |}.
    split; reflexivity.
Qed.

(** C10: every numeric field of the model is declared [int64], which
    resolves to the predeclared 64-bit integer, except
    [ReplyParameters.QuotePosition]: its declared type [Integer] is
    declared neither by the package nor by the language and resolves to
    nothing.  It is the only field of the file whose type does not
    resolve; [TextQuote.Position], the same quantity on the receiving
    side, is [int64]. *)
Theorem numeric_fields_are_int64_but_QuotePosition :
  Forall
    (fun sf =>
       if is_field "ReplyParameters" "QuotePosition" (named sf)
       then Decl.fd_type (snd sf) = Decl.TName "Integer" /\
            Decl.resolve (Decl.fd_type (snd sf)) = None
       else Decl.fd_type (snd sf) = Decl.TName "int64" /\
            Decl.resolve (Decl.fd_type (snd sf)) =
              Some (Decl.RPredeclared "int64") /\
            mem "int64" Go.numeric = true)
    Decl.numeric_fields /\
  existsb (is_field "ReplyParameters" "QuotePosition")
    (map named Decl.numeric_fields) = true /\
  existsb (is_field "TextQuote" "Position")
    (map named Decl.numeric_fields) = true /\
  Decl.field_type "TextQuote" "Position" = Some (Decl.TName "int64") /\
  Decl.field_type "ReplyParameters" "QuotePosition" =
    Some (Decl.TName "Integer") /\
  mem "Integer" Decl.declared = false /\
  mem "Integer" Go.predeclared = false /\
  Forall
    (fun sf =>
       Decl.resolve (Decl.fd_type (snd sf)) = None <->
       named sf = ("ReplyParameters", "QuotePosition"))
    Decl.all_fields.
Proof.
  split.
  { vm_compute Decl.numeric_fields.
    repeat constructor. }
  repeat (split; [reflexivity |]).
  exact only_Integer_unresolved.
Qed.

(** ** Optional fields *)

(** A field of plain type has no state for "absent": whatever a decoder
    leaves in it is a value of the type, and an explicit payload gives
    the field that very value. *)
Lemma plain_field_not_three_state (S V : Type) (get : S -> V) :
  ~ three_state get (fun v : V => v).
Proof.
  intros [decode [_ Habsent]].
  exact (Habsent (get (decode None)) eq_refl).
Qed.

(** A field of pointer type has one: [nil]. *)
Lemma pointer_field_three_state (V : Type) :
  three_state (fun p : option V => p) (@Some V).
Proof.
  exists (fun raw => raw); split.
  - reflexivity.
  - intros v; discriminate.
Qed.

(** A [bool] field has two states; three payload states do not fit. *)
Lemma bool_field_conflates (S : Type) (get : S -> bool)
    (decode : option bool -> S) :
  exists r1 r2 : option bool, r1 <> r2 /\ get (decode r1) = get (decode r2).
Proof.
  destruct (get (decode None)) eqn:En,
           (get (decode (Some false))) eqn:Ef,
           (get (decode (Some true))) eqn:Et.
  all: first
    [ exists None, (Some false); split; [discriminate | congruence]
    | exists None, (Some true); split; [discriminate | congruence]
    | exists (Some false), (Some true); split; [discriminate | congruence] ].
Qed.

(** C1, as stated, fails at [User.IsPremium] (and at every other optional
    field of plain type): the field is marked [[Optional]], it is a
    [bool], and no decoder keeps "absent" apart from both explicit
    values. *)
Lemma IsPremium_has_no_absent_state :
  In ("User", "IsPremium") optional_plain_decls /\
  Decl.field_type "User" "IsPremium" = Some (Decl.TName "bool") /\
  ~ three_state User_IsPremium (fun b : bool => b) /\
  forall decode : option bool -> User,
    exists r1 r2 : option bool,
      r1 <> r2 /\ User_IsPremium (decode r1) = User_IsPremium (decode r2).
Proof.
  split; [| split; [| split]].
  - vm_compute; tauto.
  - reflexivity.
  - apply plain_field_not_three_state.
  - apply bool_field_conflates.
Qed.

(** A slice field has a state for "absent": [nil], which is no slice
    that holds elements, not even the empty one. *)
Lemma slice_field_three_state (A : Type) :
  three_state (fun s : Go.slice A => s) (embed (Slice A)).
Proof.
  exists (fun raw => match raw with
                     | Some elems => Go.make_slice elems
                     | None => Go.nil_slice
                     end); split.
  - reflexivity.
  - intros elems; discriminate.
Qed.

(** C1, amended: every field the source marks [[Optional]] is declared
    without a pointer or wrapper, as [string], [bool], [User], [Integer]
    or a slice of [MessageEntity].  Each of the 26 whose type is declared
    holds every explicit value, and holds different explicit values
    apart, so explicit zero and explicit non-zero are two states of the
    model.  Whether there is a third state for "absent" goes by the
    declared type: the two slice fields, [TextQuote.Entities] and
    [ReplyParameters.QuoteEntities], have one ([nil], which differs from
    the empty slice); the 24 fields of type [string], [bool] or [User]
    have none, for whatever a decoder leaves in such a field is what some
    explicit value leaves there.  [ReplyParameters.QuotePosition] is the
    one optional field whose type is not declared: it has no state for
    "absent" if [Integer] is declared a plain type and has one if it is
    declared a pointer. *)
Theorem optional_fields_are_plain (Integer : Type) (i0 : Integer) :
  forallb
    (fun sf => existsb (type_eqb (Decl.fd_type (snd sf))) optional_types)
    Decl.optional_fields = true /\
  forallb (fun sf => negb (Decl.is_pointer (Decl.fd_type (snd sf))))
    Decl.all_fields = true /\
  map (fun a =>
         (of_struct a, of_name a, Some (storage_kind (of_storage a))))
    (optional_projections Integer) = optional_decl_kinds /\
  optional_undeclared = [("ReplyParameters", "QuotePosition")] /\
  Forall
    (fun a =>
       (forall v : of_V a,
           exists s : of_S a, of_get a s = embed (of_storage a) v) /\
       (forall v1 v2 : of_V a,
           embed (of_storage a) v1 = embed (of_storage a) v2 -> v1 = v2) /\
       (three_state (of_get a) (embed (of_storage a)) <->
        has_nil (storage_kind (of_storage a)) = true))
    (optional_projections Integer) /\
  map (fun a => (of_struct a, of_name a))
    (filter (fun a => has_nil (storage_kind (of_storage a)))
       (optional_projections Integer)) =
    [("TextQuote", "Entities"); ("ReplyParameters", "QuoteEntities")] /\
  ~ three_state (@ReplyParameters_QuotePosition Integer)
      (embed (Plain Integer)) /\
  three_state (@ReplyParameters_QuotePosition (option Integer))
    (embed (Pointer Integer)).
Proof.
  split; [reflexivity |].
  split; [reflexivity |].
  split; [reflexivity |].
  split; [reflexivity |].
  split; [| split; [reflexivity | split]].
  - unfold optional_projections.
    repeat (apply Forall_cons || apply Forall_nil); simpl.
    all: split; [| split].
    all: try (intros v1 v2 E; first [exact E | injection E as E; exact E]).
    all: try (split;
              [ intros H;
                first [ reflexivity
                      | exfalso; exact (plain_field_not_three_state H) ]
              | intros E; try discriminate E ]).
    all: try (intros v;
              unshelve
                (eexists (Build_User _ _ _ _ _ _ _ _ _ _ _ _ _)
                 || eexists (Build_Chat _ _ _ _ _ _ _)
                 || eexists (Build_MessageEntity _ _ _ _ _ _ _)
                 || eexists (Build_TextQuote _ _ _ _)
                 || eexists (@Build_ReplyParameters Integer _ _ _ _ _ _ _));
              simpl; try reflexivity; fill_fields i0).
    + exists (fun raw =>
                {| TextQuote_Text := "";
                   TextQuote_Entities :=
                     match raw with
                     | Some elems => Go.make_slice elems
                     | None => Go.nil_slice
                     end;
                   TextQuote_Position := Go.int64_zero;
                   TextQuote_IsManual := false |}); split.
      * reflexivity.
      * intros elems; discriminate.
    + exists (fun raw =>
                {| ReplyParameters_MessageID := Go.int64_zero;
                   ReplyParameters_ChatID := "";
                   ReplyParameters_AllowSendingWithoutReply := false;
                   ReplyParameters_Quote := "";
                   ReplyParameters_QuoteParseMode := "";
                   ReplyParameters_QuoteEntities :=
                     match raw with
                     | Some elems => Go.make_slice elems
                     | None => Go.nil_slice
                     end;
                   ReplyParameters_QuotePosition := i0 |}); split.
      * reflexivity.
      * intros elems; discriminate.
  - apply plain_field_not_three_state.
  - exists (fun raw =>
              {| ReplyParameters_MessageID := Go.int64_zero;
                 ReplyParameters_ChatID := "";
                 ReplyParameters_AllowSendingWithoutReply := false;
                 ReplyParameters_Quote := "";
                 ReplyParameters_QuoteParseMode := "";
                 ReplyParameters_QuoteEntities := Go.nil_slice;
                 ReplyParameters_QuotePosition := raw |}); split.
    + reflexivity.
    + intros v; discriminate.
Qed.

(** ** Text-entity resolver *)



(** The resolver counts UTF-16 code units, not bytes: ten ASCII
    characters are ten units; U+00E9 (two bytes) is one unit; U+1F600
    (four bytes) is two. *)
Example utf16_length_samples :
  utf16_length "0123456789" = 10 /\
  utf16_length (String "195" (String "169" "")) = 1 /\
  utf16_length
    (String "240" (String "159" (String "152" (String "128" "")))) = 2.
Proof. repeat split. Qed.

Lemma utf16_length_app (s t : string) :
  utf16_length (s ++ t) = utf16_length s + utf16_length t.
Proof.
  induction s as [| c s IH]; simpl; [reflexivity | rewrite IH; lia].
Qed.

Lemma utf16_length_nonneg (s : string) : 0 <= utf16_length s.
Proof.
  induction s as [| c s IH]; simpl; [lia |].
  unfold utf16_units.
  destruct (_ <? 128); [lia |].
  destruct (_ <? 192); [lia |].
  destruct (_ <? 240); lia.
Qed.










Lemma two_passes_covers (n : nat) :
  covers (two_passes n) n /\ spans_first (two_passes n) n.
Proof.
  split.
  - intros i Hi. unfold two_passes.
    split; apply in_or_app; [left | right];
      apply in_map; apply in_seq; lia.
  - exists (map CheckSpan (seq 0 n)), (map CheckPayload (seq 0 n)).
    split; [reflexivity | split].
    + intros c Hc. apply in_map_iff in Hc.
      destruct Hc as (i & <- & _). exists i; reflexivity.
    + intros i Hi. apply in_map; apply in_seq; lia.
Qed.



(** A [text_link] entity with [User] populated, in bounds at 5 of length
    3, does not resolve: the resolver reports the field out of place.
    Out of bounds as well, at 8 of length 5, it is reported by the check
    that comes first. *)
Example resolve_entities_misplaced_user :
  let u := {| User_ID := @Go.mk_int64 7 eq_refl;
              User_IsBot := false;
              User_FirstName := "Ada";
              User_LastName := "";
              User_Username := "";
              User_LanguageCode := "";
              User_IsPremium := false;
              User_AddedToAttachmentMenu := false;
              User_CanJoinGroups := false;
              User_CanReadAllGroupMessages := false;
              User_SupportsInlineQueries := false;
              User_CanConnectToBusiness := false;
              User_HasMainWebApp := false |} in
  let link (o l : Go.int64) :=
    {| MessageEntity_Type := "text_link";
       MessageEntity_Offset := o;
       MessageEntity_Length := l;
       MessageEntity_URL := "";
       MessageEntity_User := u;
       MessageEntity_Language := "";
       MessageEntity_CustomEmojiID := "" |} in
  resolve_entities (in_order 1) "0123456789"
    [link (@Go.mk_int64 5 eq_refl) (@Go.mk_int64 3 eq_refl)] =
    Err (MisplacedEntityField "User") /\
  resolve_entities [CheckSpan 0; CheckPayload 0] "0123456789"
    [link (@Go.mk_int64 8 eq_refl) (@Go.mk_int64 5 eq_refl)] =
    Err (EntitySpanOutOfRange 0) /\
  resolve_entities [CheckPayload 0; CheckSpan 0] "0123456789"
    [link (@Go.mk_int64 8 eq_refl) (@Go.mk_int64 5 eq_refl)] =
    Err (MisplacedEntityField "User").
Proof. repeat split. Qed.

(** ** Union resolver *)

Lemma variant_of_None (V : Type) (d : string)
    (table : list (string * (object -> result V))) :
  variant_of d table = None <-> ~ In d (map fst table).
Proof.
  induction table as [| [d' dec] table IH]; simpl.
  - tauto.
  - destruct (String.eqb_spec d d') as [-> | Hne].
    + split; [discriminate | intros H; exfalso; apply H; left; reflexivity].
    + rewrite IH. split.
      * intros Hnot [E | Hin]; [apply Hne; symmetry; exact E | exact (Hnot Hin)].
      * intros Hnot Hin; apply Hnot; right; exact Hin.
Qed.

Lemma variant_of_Some_In (V : Type) (d : string)
    (table : list (string * (object -> result V)))
    (dec : object -> result V) :
  variant_of d table = Some dec -> In (d, dec) table.
Proof.
  induction table as [| [d' dec'] table IH]; simpl; [discriminate |].
  destruct (String.eqb_spec d d') as [-> | Hne].
  - intros E; injection E as ->. left; reflexivity.
  - intros E; right; exact (IH E).
Qed.

(** The resolver never answers for a discriminator the table lacks:
    whatever it decodes, it decodes with the function the table maps the
    discriminator of the object to. *)
Lemma resolve_union_Ok (V : Type) (disc : string)
    (table : list (string * (object -> result V))) (o : object) (v : V) :
  resolve_union disc table o = Ok v ->
  exists (d : string) (dec : object -> result V),
    lookup disc o = Some (JStr d) /\ In (d, dec) table /\ dec o = Ok v.
Proof.
  unfold resolve_union.
  destruct (lookup disc o) as [[| b | z | d | items | members] |];
    try discriminate.
  destruct (variant_of d table) as [dec |] eqn:Hdec; [| discriminate].
  intros E. exists d, dec.
  repeat split; [apply variant_of_Some_In; assumption | assumption].
Qed.

Lemma resolve_union_unknown (V : Type) (disc : string)
    (table : list (string * (object -> result V))) (o : object) (d : string) :
  lookup disc o = Some (JStr d) ->
  ~ In d (map fst table) ->
  resolve_union disc table o = Err (UnknownVariant d).
Proof.
  intros Hd Hnot. unfold resolve_union. rewrite Hd.
  apply variant_of_None in Hnot. rewrite Hnot. reflexivity.
Qed.

Lemma rmap_Ok (A B : Type) (f : A -> B) (r : result A) (b : B) :
  rmap f r = Ok b -> exists a, r = Ok a /\ b = f a.
Proof.
  destruct r as [a | e]; simpl; [| discriminate].
  intros E; injection E as <-. exists a; split; reflexivity.
Qed.

(** C3: decoding a [MessageOrigin] whose [type] is a string the table of
    the union does not list fails with [UnknownVariant] carrying that
    string, whatever else the payload holds and whatever rows complete
    the table; a payload is decoded to a variant only under the
    discriminator the table gives the variant, so [OriginHiddenUser]
    comes from "hidden_user" alone.  The payload
    [{"type":"hidden_user","date":1700000000,"sender_user_name":"Anon"}]
    decodes to a [MessageOriginHiddenUser] with that date and that name,
    and [{"type":"alien","date":1}] to [UnknownVariant "alien"]. *)
Theorem MessageOrigin_unknown_variant
    (Other : Type) (others : list (string * (object -> result Other))) :
  (forall (o : object) (d : string),
      lookup "type" o = Some (JStr d) ->
      ~ In d (MessageOrigin_variants others) ->
      decode_MessageOrigin others (JObj o) = Err (UnknownVariant d)) /\
  (forall (o : object) (v : MessageOrigin Other),
      decode_MessageOrigin others (JObj o) = Ok v ->
      exists d : string,
        lookup "type" o = Some (JStr d) /\
        In d (MessageOrigin_variants others)) /\
  (forall (o : object) (h : MessageOriginHiddenUser),
      decode_MessageOrigin others (JObj o) = Ok (OriginHiddenUser h) ->
      lookup "type" o = Some (JStr "hidden_user") /\
      MessageOriginHiddenUser_Type h = "hidden_user") /\
  decode_MessageOrigin others
    (JObj [ ("type", JStr "hidden_user");
            ("date", JNum 1700000000);
            ("sender_user_name", JStr "Anon") ]) =
    Ok (OriginHiddenUser
          {| MessageOriginHiddenUser_Type := "hidden_user";
             MessageOriginHiddenUser_Date := @Go.mk_int64 1700000000 eq_refl;
             MessageOriginHiddenUser_SendUserName := "Anon" |}) /\
  (~ In "alien" (map fst others) ->
   decode_MessageOrigin others (JObj [ ("type", JStr "alien"); ("date", JNum 1) ]) =
     Err (UnknownVariant "alien")).
Proof.
  split; [| split; [| split; [| split]]].
  - intros o d Hd Hnot. simpl.
    apply resolve_union_unknown; assumption.
  - intros o v E. simpl in E.
    apply resolve_union_Ok in E.
    destruct E as (d & dec & Hd & Hin & _).
    exists d; split; [assumption |].
    unfold MessageOrigin_variants.
    apply in_map_iff. exists (d, dec); split; [reflexivity | assumption].
  - intros o h E. simpl in E.
    apply resolve_union_Ok in E.
    destruct E as (d & dec & Hd & Hin & Hdec).
    unfold MessageOrigin_table in Hin.
    destruct Hin as [Hrow | [Hrow | Hrow]].
    + injection Hrow as <- <-.
      apply rmap_Ok in Hdec. destruct Hdec as (u & _ & Habs). discriminate.
    + injection Hrow as <- <-.
      apply rmap_Ok in Hdec. destruct Hdec as (h' & Hh & Eh).
      injection Eh as ->.
      split; [assumption |].
      unfold decode_MessageOriginHiddenUser, required in Hh.
      rewrite Hd in Hh. simpl in Hh.
      destruct (lookup "date" o) as [jd |]; [| discriminate].
      destruct (as_int64 "date" jd) as [date |]; [| discriminate].
      simpl in Hh.
      destruct (lookup "sender_user_name" o) as [jn |]; [| discriminate].
      destruct (as_string "sender_user_name" jn) as [name |]; [| discriminate].
      simpl in Hh. injection Hh as <-. reflexivity.
    + apply in_map_iff in Hrow. destruct Hrow as ([d' dec'] & Hrow & _).
      injection Hrow as <- <-.
      apply rmap_Ok in Hdec. destruct Hdec as (x & _ & Habs). discriminate.
  - reflexivity.
  - intros Hnot. simpl.
    apply resolve_union_unknown; [reflexivity |].
    simpl. rewrite map_map; simpl.
    intros [E | [E | Hin]]; try discriminate.
    apply Hnot. exact Hin.
Qed.

(** The theorem with no further variants in the table. *)
Lemma MessageOrigin_unknown_variant_witness :
  decode_MessageOrigin (@nil (string * (object -> result Empty_set)))
    (JObj [ ("date", JNum 1); ("type", JStr "channel_post") ]) =
    Err (UnknownVariant "channel_post") /\
  decode_MessageOrigin (@nil (string * (object -> result Empty_set)))
    (JObj [ ("type", JStr "alien"); ("date", JNum 1) ]) =
    Err (UnknownVariant "alien").
Proof.
  split.
  - apply (proj1 (MessageOrigin_unknown_variant
                    (@nil (string * (object -> result Empty_set))))).
    + reflexivity.
    + simpl. intros [E | [E | []]]; discriminate.
  - apply (proj2 (proj2 (proj2 (proj2 (MessageOrigin_unknown_variant
                    (@nil (string * (object -> result Empty_set)))))))).
    simpl. tauto.
Defined.

(** ** The package as the type checker sees it *)

Lemma mem_app (n : string) (l1 l2 : list string) :
  mem n (l1 ++ l2) = mem n l1 || mem n l2.
Proof. unfold mem. apply existsb_app. Qed.

Lemma resolve_in_declared (t : Decl.TypeExpr) :
  resolve_in Decl.declared t = Decl.resolve t.
Proof.
  induction t as [n | e IH | e IH]; simpl; [reflexivity | |];
    rewrite IH; reflexivity.
Qed.

(** A type is defined in the larger package when it is defined in
    types.go alone or built on one of the further names. *)
Lemma resolves_in_app (extra : list string) (t : Decl.TypeExpr) :
  resolves_in (Decl.declared ++ extra) t =
    resolves_in Decl.declared t || mem (base_name t) extra.
Proof.
  unfold resolves_in.
  induction t as [n | e IH | e IH]; cbn [resolve_in base_name].
  - rewrite mem_app.
    destruct (mem n Decl.declared), (mem n extra), (mem n Go.predeclared);
      reflexivity.
  - destruct (resolve_in (Decl.declared ++ extra) e),
             (resolve_in Decl.declared e); cbn [option_map]; exact IH.
  - destruct (resolve_in (Decl.declared ++ extra) e),
             (resolve_in Decl.declared e); cbn [option_map]; exact IH.
Qed.

(** X1: whatever further types the package declares, the one field of
    types.go with an undefined type is [ReplyParameters.QuotePosition],
    and it is undefined exactly as long as none of them is [Integer]:
    every type name of the file is defined in a package that declares
    [Integer], and in no other. *)
Theorem undefined_fields_spec (extra : list string) :
  undefined_fields extra =
    if mem "Integer" extra then []
    else [("ReplyParameters", "QuotePosition")].
Proof.
  unfold undefined_fields.
  rewrite (filter_ext _
             (fun sf =>
                negb (resolves_in Decl.declared (Decl.fd_type (snd sf))
                      || mem (base_name (Decl.fd_type (snd sf))) extra)))
    by (intros sf; rewrite resolves_in_app; reflexivity).
  unfold Decl.all_fields; simpl.
  destruct (existsb (String.eqb "Integer") extra) eqn:E;
    unfold mem; rewrite E; reflexivity.
Qed.

(** ** Comparable structs *)

(** X2: [TextQuote] and [ReplyParameters] are not comparable, whatever
    [Integer] is declared as: each has a slice of [MessageEntity] among
    its fields, so their values cannot be compared with [==] or used as
    map keys.  The other seven structs are comparable.  Four levels of
    nesting are enough to tell, and more change nothing; the two structs
    with a slice are found not comparable at every depth. *)
Theorem comparable_structs (fuel : nat) (integer : bool) :
  map (fun d =>
         (Decl.sd_name d,
          comparable (4 + fuel) integer (Decl.TName (Decl.sd_name d))))
    Decl.package =
  [ ("User", true);
    ("Chat", true);
    ("MessageID", true);
    ("InaccessibleMessage", true);
    ("MessageEntity", true);
    ("TextQuote", false);
    ("ReplyParameters", false);
    ("MessageOriginUser", true);
    ("MessageOriginHiddenUser", true) ] /\
  (forall n : nat,
      comparable n integer (Decl.TName "TextQuote") = false /\
      comparable n integer (Decl.TName "ReplyParameters") = false).
Proof.
  split.
  - destruct integer; reflexivity.
  - intros [| [| n]]; split; reflexivity.
Qed.

(** ** Structs inside structs *)

Lemma contains_declared_earlier (a b : string) :
  contains a b ->
  (position b Decl.declared < position a Decl.declared)%nat.
Proof.
  intros (d & Hd & <- & Hb).
  unfold Decl.package in Hd; simpl in Hd.
  repeat (destruct Hd as [<- | Hd]);
    try contradiction;
    vm_compute in Hb;
    repeat (destruct Hb as [<- | Hb]);
    try contradiction;
    vm_compute; lia.
Qed.

Lemma reaches_declared_earlier (a b : string) :
  clos_trans string contains a b ->
  (position b Decl.declared < position a Decl.declared)%nat.
Proof.
  induction 1 as [a b H | a b c _ IH1 _ IH2].
  - apply contains_declared_earlier; assumption.
  - lia.
Qed.

(** X4: the declarations of types.go are in order.  No two structs have
    the same name and no struct has two fields of the same name; a
    struct that a field is built on is declared earlier in the file than
    the struct of the field; hence no struct contains itself, directly or
    through other structs. *)
Theorem declarations_in_order :
  NoDup Decl.declared /\
  Forall (fun d => NoDup (map Decl.fd_name (Decl.sd_fields d))) Decl.package /\
  (forall a b : string,
      clos_trans string contains a b ->
      (position b Decl.declared < position a Decl.declared)%nat) /\
  (forall a : string, ~ clos_trans string contains a a).
Proof.
  split; [| split; [| split]].
  - vm_compute.
    repeat (constructor; [simpl; intuition discriminate |]).
    constructor.
  - unfold Decl.package.
    repeat (apply Forall_cons || apply Forall_nil); vm_compute;
      repeat (constructor; [simpl; intuition discriminate |]);
      constructor.
  - exact reaches_declared_earlier.
  - intros a H.
    apply reaches_declared_earlier in H. lia.
Qed.

(** The theorem at [TextQuote], which reaches [User] through
    [MessageEntity]. *)
Lemma declarations_in_order_witness :
  (position "User" Decl.declared < position "TextQuote" Decl.declared)%nat.
Proof.
  apply (proj1 (proj2 (proj2 declarations_in_order))).
  apply t_trans with (y := "MessageEntity"); apply t_step.
  - exists Decl.TextQuote.
    split; [simpl; tauto | split; [reflexivity | simpl; tauto]].
  - exists Decl.MessageEntity.
    split; [simpl; tauto | split; [reflexivity | simpl; tauto]].
Defined.

(** ** What the comments document *)

(** X3: as the comments of [MessageEntity] document its fields, an entity
    type has at most one payload field, and only the types the comment
    of [Type] lists have one; the four documented fields are the four
    optional fields of the struct.  The comments of [TextQuote] and of
    [ReplyParameters] name the same six entity types as kept in quotes,
    all of them listed types; of the six only "custom_emoji" has a
    payload field, [CustomEmojiID], so [URL], [User] and [Language] are
    documented for no entity of a quote. *)
Theorem payload_fields_documented :
  (forall t : string,
      (List.length (applicable t) <= 1)%nat /\
      (applicable t = [] \/ In t entity_types)) /\
  map fst payload_only =
    map Decl.fd_name
      (filter Decl.fd_optional (Decl.sd_fields Decl.MessageEntity)) /\
  map (fun t => (t, applicable t))
    (filter (fun t => negb (List.length (applicable t) =? 0)%nat) entity_types) =
    [ ("pre", ["Language"]);
      ("text_link", ["URL"]);
      ("text_mention", ["User"]);
      ("custom_emoji", ["CustomEmojiID"]) ] /\
  quote_entity_types = reply_quote_entity_types /\
  forallb (fun t => mem t entity_types) quote_entity_types = true /\
  map applicable quote_entity_types =
    [ []; []; []; []; []; ["CustomEmojiID"] ].
Proof.
  split; [| repeat split].
  intros t.
  unfold applicable, payload_only; cbn [filter snd].
  destruct (String.eqb_spec "text_link" t) as [<- | _];
    [split; [simpl; lia | right; simpl; tauto] |].
  destruct (String.eqb_spec "text_mention" t) as [<- | _];
    [split; [simpl; lia | right; simpl; tauto] |].
  destruct (String.eqb_spec "pre" t) as [<- | _];
    [split; [simpl; lia | right; simpl; tauto] |].
  destruct (String.eqb_spec "custom_emoji" t) as [<- | _];
    [split; [simpl; lia | right; simpl; tauto] |].
  split; [simpl; lia | left; reflexivity].
Qed.
